(** * wolfsoftware.pushover: request construction and error translation

    A shallow embedding of [wolfsoftware/pushover/pushover.py] and
    [wolfsoftware/pushover/exceptions.py].

    The four methods of the [Pushover] class talk to three things outside
    the package: the builtin [open], the [requests] transport
    ([requests.post] / [requests.get]) and the [Response] object the
    transport hands back.  They are modelled as an oracle ([World]) that the
    methods query, and every query is recorded, in order, in a trace of
    [Event]s.  A method is a computation in a small monad that threads the
    trace and can raise; the trace is kept when an exception is raised, so
    that "the file is closed even if the call fails" is a statement about
    the final trace. *)

From Stdlib Require Import String ZArith List Bool Lia.
Import ListNotations.
Set Warnings "-register-all".
Local Open Scope string_scope.
Local Open Scope Z_scope.

(** ** Python values that occur in the payload *)

(** The values of the [payload] dictionaries: [str], [int] or [None]. *)
Inductive PyVal : Type :=
| PyNone
| PyStr (s : string)
| PyInt (n : Z).

(** [Optional[str]] and [Optional[int]] arguments stored in a dict. *)
Definition of_opt_str (o : option string) : PyVal :=
  match o with Some s => PyStr s | None => PyNone end.

Definition of_opt_int (o : option Z) : PyVal :=
  match o with Some n => PyInt n | None => PyNone end.

(** A dict literal keeps its insertion order: an association list. *)
Definition Dict : Type := list (string * PyVal).

Fixpoint dict_get (k : string) (d : Dict) : option PyVal :=
  match d with
  | [] => None
  | (k', v) :: d' => if String.eqb k k' then Some v else dict_get k d'
  end.

Definition dict_keys (d : Dict) : list string := map fst d.

(** Truth value of an [Optional[str]]: [None] and the empty string are
    false, every other string is true. *)
Definition truthy (o : option string) : bool :=
  match o with
  | None => false
  | Some s => negb (String.eqb s "")
  end.

(** [if attachment: then_ attachment else: else_], for an [Optional[str]]:
    in the first branch the value is a string. *)
Definition if_truthy {A : Type} (o : option string) (then_ : string -> A)
    (else_ : A) : A :=
  match o with
  | None => else_
  | Some s => if truthy o then then_ s else else_
  end.

(** A keyword argument at a call site: left out (the default of the
    signature applies) or given. *)
Inductive Kwarg (A : Type) : Type :=
| Omitted
| Given (a : A).
Arguments Omitted {A}.
Arguments Given {A} a.

Definition kwarg {A : Type} (default : A) (k : Kwarg A) : A :=
  match k with
  | Omitted => default
  | Given a => a
  end.

(** ** JSON, as returned by [response.json()] *)

Inductive Json : Type :=
| JNull
| JBool (b : bool)
| JNum (n : Z)
| JStr (s : string)
| JArr (items : list Json)
| JObj (members : list (string * Json)).

(** ** Exceptions *)

(** The exception classes that can reach the methods.  [HTTPError] is the
    subclass of [RequestException] raised by [raise_for_status];
    [RequestException] stands for the other transport failures
    (ConnectionError, Timeout, ...); [OSError] is what [open] raises;
    [JSONDecodeError] is what [response.json()] raises (in current
    [requests] a subclass of [RequestException] too); [OtherError] is any
    class outside the [requests] hierarchy.  [PushoverException] is the
    class of [exceptions.py]; [cause] is the [__cause__] set by
    [raise ... from e]. *)
Inductive exn : Type :=
| HTTPError (msg : string)
| RequestException (msg : string)
| OSError (msg : string)
| JSONDecodeError (msg : string)
| OtherError (cls msg : string)
| PushoverException (message : string) (cause : option exn).

(** [str(e)]: every class above is built from one message argument. *)
Definition str (e : exn) : string :=
  match e with
  | HTTPError m | RequestException m | OSError m | JSONDecodeError m => m
  | OtherError _ m => m
  | PushoverException m _ => m
  end.

(** [except (HTTPError, RequestException)]: the classes the handler takes.
    ([OSError] is a base class of [RequestException], not a subclass.) *)
Definition is_request_exception (e : exn) : bool :=
  match e with
  | HTTPError _ | RequestException _ | JSONDecodeError _ => true
  | _ => false
  end.

Inductive result (A : Type) : Type :=
| Ok (a : A)
| Raise (e : exn).
Arguments Ok {A} a.
Arguments Raise {A} e.

(** ** The outside world *)

(** The object [open(path, "rb")] returns. *)
Record BufferedReader : Type := {
  name : string;
  fileno : Z
}.

Inductive Method : Type := GET | POST.

(** What one call of [requests.post] / [requests.get] is given.  A keyword
    that the call does not pass is [None]. *)
Record Request : Type := {
  method : Method;
  url : string;
  params : option Dict;
  data : option Dict;
  files : option (list (string * BufferedReader));
  req_timeout : Z
}.

(** [requests.Response], as far as the methods look at it: the status code,
    the text of the [HTTPError] the library would build for it, and the
    outcome of decoding the body. *)
Record Response : Type := {
  status_code : Z;
  http_error_msg : string;
  body_json : result Json
}.

Record World : Type := {
  fs_open : string -> string -> result BufferedReader;
  transport : Request -> result Response
}.

Inductive Event : Type :=
| EvOpen (path mode : string) (r : result BufferedReader)
| EvClose (f : BufferedReader)
| EvHttp (req : Request) (r : result Response).

(** ** The monad of the methods *)

Definition M (A : Type) : Type := World -> list Event -> result A * list Event.

Definition ret {A : Type} (a : A) : M A := fun _ tr => (Ok a, tr).

Definition raise {A : Type} (e : exn) : M A := fun _ tr => (Raise e, tr).

Definition bind {A B : Type} (m : M A) (k : A -> M B) : M B :=
  fun w tr =>
    match m w tr with
    | (Ok a, tr') => k a w tr'
    | (Raise e, tr') => (Raise e, tr')
    end.

Notation "x <- m ;; k" := (bind m (fun x => k))
  (at level 61, m at next level, right associativity).
Notation "m ;;; k" := (bind m (fun _ => k))
  (at level 61, right associativity).

(** [try: m except <classes> as e: handler e] *)
Definition try_except {A : Type} (m : M A) (classes : exn -> bool)
    (handler : exn -> M A) : M A :=
  fun w tr =>
    match m w tr with
    | (Ok a, tr') => (Ok a, tr')
    | (Raise e, tr') => if classes e then handler e w tr' else (Raise e, tr')
    end.

(** [raise new from e] *)
Definition raise_from {A : Type} (new : option exn -> exn) (e : exn) : M A :=
  raise (new (Some e)).

Definition emit (ev : Event) : M unit := fun _ tr => (Ok tt, (tr ++ [ev])%list).

(** The builtin [open]. *)
Definition open_ (path mode : string) : M BufferedReader :=
  fun w tr =>
    let r := fs_open w path mode in
    (r, (tr ++ [EvOpen path mode r])%list).

Definition close (f : BufferedReader) : M unit := emit (EvClose f).

(** Leaving a block: [cleanup] runs whatever [m] did, and the outcome of
    [m] stands. *)
Definition finally {A : Type} (m : M A) (cleanup : M unit) : M A :=
  fun w tr =>
    match m w tr with
    | (r, tr') => (r, snd (cleanup w tr'))
    end.

(** [with open(path, mode) as file: body file]: the file is closed when the
    block is left, normally or by an exception, and the exception goes on.
    When [open] itself raises, the block is not entered. *)
Definition with_open {A : Type} (path mode : string)
    (body : BufferedReader -> M A) : M A :=
  file <- open_ path mode ;;
  finally (body file) (close file).

Definition request (req : Request) : M Response :=
  fun w tr =>
    let r := transport w req in
    (r, (tr ++ [EvHttp req r])%list).

(** [requests.post(url, data=..., files=..., timeout=...)] *)
Definition requests_post (u : string) (d : Dict)
    (fs : option (list (string * BufferedReader))) (t : Z) : M Response :=
  request {| method := POST; url := u; params := None; data := Some d;
             files := fs; req_timeout := t |}.

(** [requests.get(url, params=..., timeout=...)] *)
Definition requests_get (u : string) (p : Dict) (t : Z) : M Response :=
  request {| method := GET; url := u; params := Some p; data := None;
             files := None; req_timeout := t |}.

(** [Response.raise_for_status] of the [requests] library: an [HTTPError]
    for the client-error and server-error status codes (400 to 599), nothing
    for any other code. *)
Definition raise_for_status (r : Response) : M unit :=
  if (400 <=? status_code r) && (status_code r <? 600)
  then raise (HTTPError (http_error_msg r))
  else ret tt.

(** [Response.json] *)
Definition json (r : Response) : M Json :=
  fun _ tr => (body_json r, tr).

(** ** The class [Pushover] *)

Record Pushover : Type := {
  user_key : string;
  api_token : string;
  api_url : string;
  timeout : Z
}.

(** [Pushover.__init__(self, user_key, api_token, timeout=10)] *)
Definition Pushover_init (user_key api_token : string) (timeout : Kwarg Z)
    : Pushover :=
  {| user_key := user_key;
     api_token := api_token;
     api_url := "https://api.pushover.net/1/messages.json";
     timeout := kwarg 10 timeout |}.

(** [PushoverException(f"<prefix>{e}")], waiting for its [__cause__]. *)
Definition failed (prefix : string) (e : exn) : option exn -> exn :=
  PushoverException (prefix ++ str e).

(** The body of [Pushover.send_message], every parameter bound. *)
Definition send_message_body (self : Pushover) (message : string)
    (title url_ url_title : option string) (priority : option Z)
    (sound device attachment : option string) : M Json :=
  let payload : Dict :=
    [ ("token", PyStr (api_token self));
      ("user", PyStr (user_key self));
      ("message", PyStr message);
      ("title", of_opt_str title);
      ("url", of_opt_str url_);
      ("url_title", of_opt_str url_title);
      ("priority", of_opt_int priority);
      ("sound", of_opt_str sound);
      ("device", of_opt_str device) ] in
  response <-
    try_except
      (response <-
         if_truthy attachment
           (fun path =>
              with_open path "rb" (fun file =>
                let files := [("attachment", file)] in
                requests_post (api_url self) payload (Some files)
                              (timeout self)))
           (requests_post (api_url self) payload None (timeout self)) ;;
       raise_for_status response ;;;
       ret response)
      is_request_exception
      (fun e => raise_from (failed "Failed to send message: " e) e) ;;
  json response.

(** The body of [Pushover.send_emergency_message]. *)
Definition send_emergency_message_body (self : Pushover) (message : string)
    (title url_ url_title : option string) (retry expire : option Z)
    (sound device : option string) : M Json :=
  let payload : Dict :=
    [ ("token", PyStr (api_token self));
      ("user", PyStr (user_key self));
      ("message", PyStr message);
      ("title", of_opt_str title);
      ("url", of_opt_str url_);
      ("url_title", of_opt_str url_title);
      ("priority", PyInt 2);
      ("retry", of_opt_int retry);
      ("expire", of_opt_int expire);
      ("sound", of_opt_str sound);
      ("device", of_opt_str device) ] in
  response <-
    try_except
      (response <- requests_post (api_url self) payload None (timeout self) ;;
       raise_for_status response ;;;
       ret response)
      is_request_exception
      (fun e => raise_from (failed "Failed to send emergency message: " e) e) ;;
  json response.

(** The body of [Pushover.send_group_message]. *)
Definition send_group_message_body (self : Pushover) (message : string)
    (group_key : string) (title url_ url_title : option string)
    (priority : option Z) (sound device attachment : option string)
    : M Json :=
  let payload : Dict :=
    [ ("token", PyStr (api_token self));
      ("user", PyStr group_key);
      ("message", PyStr message);
      ("title", of_opt_str title);
      ("url", of_opt_str url_);
      ("url_title", of_opt_str url_title);
      ("priority", of_opt_int priority);
      ("sound", of_opt_str sound);
      ("device", of_opt_str device) ] in
  response <-
    try_except
      (response <-
         if_truthy attachment
           (fun path =>
              with_open path "rb" (fun file =>
                let files := [("attachment", file)] in
                requests_post (api_url self) payload (Some files)
                              (timeout self)))
           (requests_post (api_url self) payload None (timeout self)) ;;
       raise_for_status response ;;;
       ret response)
      is_request_exception
      (fun e => raise_from (failed "Failed to send group message: " e) e) ;;
  json response.

(** [Pushover.list_sounds] *)
Definition list_sounds (self : Pushover) : M Json :=
  let sounds_url := "https://api.pushover.net/1/sounds.json" in
  let params : Dict := [ ("token", PyStr (api_token self)) ] in
  response <-
    try_except
      (response <- requests_get sounds_url params (timeout self) ;;
       raise_for_status response ;;;
       ret response)
      is_request_exception
      (fun e => raise_from (failed "Failed to list sounds: " e) e) ;;
  json response.

(** *** Call sites: keyword arguments and the defaults of the signatures *)

Record MessageKwargs : Type := {
  kw_title : Kwarg (option string);
  kw_url : Kwarg (option string);
  kw_url_title : Kwarg (option string);
  kw_priority : Kwarg (option Z);
  kw_sound : Kwarg (option string);
  kw_device : Kwarg (option string);
  kw_attachment : Kwarg (option string)
}.

Record EmergencyKwargs : Type := {
  em_title : Kwarg (option string);
  em_url : Kwarg (option string);
  em_url_title : Kwarg (option string);
  em_retry : Kwarg (option Z);
  em_expire : Kwarg (option Z);
  em_sound : Kwarg (option string);
  em_device : Kwarg (option string)
}.

(** [send_message(self, message, title=None, url=None, url_title=None,
    priority=0, sound=None, device=None, attachment=None)] *)
Definition send_message (self : Pushover) (message : string)
    (kw : MessageKwargs) : M Json :=
  send_message_body self message
    (kwarg None (kw_title kw)) (kwarg None (kw_url kw))
    (kwarg None (kw_url_title kw)) (kwarg (Some 0) (kw_priority kw))
    (kwarg None (kw_sound kw)) (kwarg None (kw_device kw))
    (kwarg None (kw_attachment kw)).

(** [send_emergency_message(self, message, title=None, url=None,
    url_title=None, retry=30, expire=3600, sound=None, device=None)] *)
Definition send_emergency_message (self : Pushover) (message : string)
    (kw : EmergencyKwargs) : M Json :=
  send_emergency_message_body self message
    (kwarg None (em_title kw)) (kwarg None (em_url kw))
    (kwarg None (em_url_title kw)) (kwarg (Some 30) (em_retry kw))
    (kwarg (Some 3600) (em_expire kw))
    (kwarg None (em_sound kw)) (kwarg None (em_device kw)).

(** [send_group_message(self, message, group_key, title=None, url=None,
    url_title=None, priority=0, sound=None, device=None, attachment=None)] *)
Definition send_group_message (self : Pushover) (message group_key : string)
    (kw : MessageKwargs) : M Json :=
  send_group_message_body self message group_key
    (kwarg None (kw_title kw)) (kwarg None (kw_url kw))
    (kwarg None (kw_url_title kw)) (kwarg (Some 0) (kw_priority kw))
    (kwarg None (kw_sound kw)) (kwarg None (kw_device kw))
    (kwarg None (kw_attachment kw)).

(** One call of one of the four public methods. *)
Inductive Call : Type :=
| SendMessage (message : string) (kw : MessageKwargs)
| SendEmergencyMessage (message : string) (kw : EmergencyKwargs)
| SendGroupMessage (message group_key : string) (kw : MessageKwargs)
| ListSounds.

Definition invoke (self : Pushover) (c : Call) : M Json :=
  match c with
  | SendMessage message kw => send_message self message kw
  | SendEmergencyMessage message kw => send_emergency_message self message kw
  | SendGroupMessage message group_key kw =>
      send_group_message self message group_key kw
  | ListSounds => list_sounds self
  end.

(** A call made in world [w], from an empty trace: what the caller gets and
    what happened outside. *)
Definition run (w : World) (self : Pushover) (c : Call)
    : result Json * list Event :=
  invoke self c w [].

Definition outcome (w : World) (self : Pushover) (c : Call) : result Json :=
  fst (run w self c).

Definition trace (w : World) (self : Pushover) (c : Call) : list Event :=
  snd (run w self c).

(** ** Reading a trace *)

Definition http_calls (tr : list Event) : list (Request * result Response) :=
  flat_map (fun ev => match ev with EvHttp req r => [(req, r)] | _ => [] end) tr.

Definition open_calls (tr : list Event) : list (string * string) :=
  flat_map (fun ev => match ev with EvOpen p m _ => [(p, m)] | _ => [] end) tr.

Definition close_calls (tr : list Event) : list BufferedReader :=
  flat_map (fun ev => match ev with EvClose f => [f] | _ => [] end) tr.

(** The text each method puts in front of the cause. *)
Definition failure_prefix (c : Call) : string :=
  match c with
  | SendMessage _ _ => "Failed to send message: "
  | SendEmergencyMessage _ _ => "Failed to send emergency message: "
  | SendGroupMessage _ _ _ => "Failed to send group message: "
  | ListSounds => "Failed to list sounds: "
  end.

(** The attachment argument a call binds ([None] for the two methods that
    have no such parameter). *)
Definition attachment_of (c : Call) : option string :=
  match c with
  | SendMessage _ kw | SendGroupMessage _ _ kw => kwarg None (kw_attachment kw)
  | _ => None
  end.

(** The call tries to open an attachment and [open] raises. *)
Definition open_fails (w : World) (c : Call) : bool :=
  if_truthy (attachment_of c)
    (fun path => match fs_open w path "rb" with Ok _ => false | Raise _ => true end)
    false.

Definition no_kwargs : MessageKwargs :=
  {| kw_title := Omitted; kw_url := Omitted; kw_url_title := Omitted;
     kw_priority := Omitted; kw_sound := Omitted; kw_device := Omitted;
     kw_attachment := Omitted |}.

Definition no_em_kwargs : EmergencyKwargs :=
  {| em_title := Omitted; em_url := Omitted; em_url_title := Omitted;
     em_retry := Omitted; em_expire := Omitted; em_sound := Omitted;
     em_device := Omitted |}.

Definition set_attachment (kw : MessageKwargs) (a : Kwarg (option string))
    : MessageKwargs :=
  {| kw_title := kw_title kw; kw_url := kw_url kw;
     kw_url_title := kw_url_title kw; kw_priority := kw_priority kw;
     kw_sound := kw_sound kw; kw_device := kw_device kw;
     kw_attachment := a |}.

(** ** Scripted worlds, after the fixtures of [tests/conftest.py] *)

Module Fixtures.

(** [Pushover(user_key="test_user_key", api_token="test_api_token")] *)
Definition pushover : Pushover :=
  Pushover_init "test_user_key" "test_api_token" Omitted.

Definition the_file : BufferedReader := {| name := "path/to/file"; fileno := 3 |}.

(** [mock_open]: every path opens. *)
Definition mock_file : string -> string -> result BufferedReader :=
  fun _ _ => Ok the_file.

(** No file can be opened. *)
Definition no_file : string -> string -> result BufferedReader :=
  fun _ _ => Raise (OSError "[Errno 2] No such file or directory").

Definition respond (code : Z) (msg : string) (body : result Json)
    : Request -> result Response :=
  fun _ => Ok {| status_code := code; http_error_msg := msg; body_json := body |}.

Definition status_1 : Json := JObj [("status", JNum 1)].

Definition world_200 : World :=
  {| fs_open := mock_file; transport := respond 200 "" (Ok status_1) |}.

Definition world_400 : World :=
  {| fs_open := mock_file;
     transport := respond 400 "Bad Request" (Ok (JObj [("status", JNum 0)])) |}.

Definition world_304 : World :=
  {| fs_open := mock_file; transport := respond 304 "" (Ok status_1) |}.

Definition world_timeout : World :=
  {| fs_open := mock_file;
     transport := fun _ => Raise (RequestException "timed out") |}.

Definition world_bad_json : World :=
  {| fs_open := mock_file;
     transport := respond 200 ""
       (Raise (JSONDecodeError "Expecting value: line 1 column 1 (char 0)")) |}.

Definition world_no_file : World :=
  {| fs_open := no_file; transport := respond 200 "" (Ok status_1) |}.

Definition with_file : MessageKwargs :=
  set_attachment no_kwargs (Given (Some "path/to/file")).

(** The scenario of the specification: a client built with "U" and "T"
    sends "hi" to the group "G". *)
Definition client_U_T : Pushover := Pushover_init "U" "T" Omitted.

Definition request_to_G : Request :=
  {| method := POST;
     url := "https://api.pushover.net/1/messages.json";
     params := None;
     data := Some
       [ ("token", PyStr "T"); ("user", PyStr "G"); ("message", PyStr "hi");
         ("title", PyNone); ("url", PyNone); ("url_title", PyNone);
         ("priority", PyInt 0); ("sound", PyNone); ("device", PyNone) ];
     files := None;
     req_timeout := 10 |}.

End Fixtures.

(** ** What a call looks like from outside *)

(** The handler of the four methods, applied to an exception that reaches
    the [except] clause of the method with text [prefix]. *)
Definition handled (prefix : string) (e : exn) : result Json :=
  if is_request_exception e
  then Raise (PushoverException (prefix ++ str e) (Some e))
  else Raise e.

(** What the caller gets once the transport has answered [res]. *)
Definition settle (prefix : string) (res : result Response) : result Json :=
  match res with
  | Raise e => handled prefix e
  | Ok r =>
      if (400 <=? status_code r) && (status_code r <? 600)
      then handled prefix (HTTPError (http_error_msg r))
      else body_json r
  end.

(** The three ways a call can go: one request and nothing else; an
    attachment opened, one request, the attachment closed; an attachment
    that does not open. *)
Inductive Shape (w : World) (c : Call) : result Json * list Event -> Prop :=
| Plain (req : Request) :
    truthy (attachment_of c) = false ->
    files req = None ->
    Shape w c (settle (failure_prefix c) (transport w req),
               [EvHttp req (transport w req)])
| Attached (path : string) (file : BufferedReader) (req : Request) :
    attachment_of c = Some path ->
    path <> "" ->
    fs_open w path "rb" = Ok file ->
    files req = Some [("attachment", file)] ->
    Shape w c (settle (failure_prefix c) (transport w req),
               [EvOpen path "rb" (Ok file);
                EvHttp req (transport w req);
                EvClose file])
| NotOpened (path : string) (e : exn) :
    attachment_of c = Some path ->
    path <> "" ->
    fs_open w path "rb" = Raise e ->
    Shape w c (handled (failure_prefix c) e, [EvOpen path "rb" (Raise e)]).

(** The request of [send_emergency_message]. *)
Definition emergency_request (self : Pushover) (message : string)
    (kw : EmergencyKwargs) : Request :=
  {| method := POST;
     url := api_url self;
     params := None;
     data := Some
       [ ("token", PyStr (api_token self));
         ("user", PyStr (user_key self));
         ("message", PyStr message);
         ("title", of_opt_str (kwarg None (em_title kw)));
         ("url", of_opt_str (kwarg None (em_url kw)));
         ("url_title", of_opt_str (kwarg None (em_url_title kw)));
         ("priority", PyInt 2);
         ("retry", of_opt_int (kwarg (Some 30) (em_retry kw)));
         ("expire", of_opt_int (kwarg (Some 3600) (em_expire kw)));
         ("sound", of_opt_str (kwarg None (em_sound kw)));
         ("device", of_opt_str (kwarg None (em_device kw))) ];
     files := None;
     req_timeout := timeout self |}.

(** The request of [list_sounds]. *)
Definition sounds_request (self : Pushover) : Request :=
  {| method := GET;
     url := "https://api.pushover.net/1/sounds.json";
     params := Some [("token", PyStr (api_token self))];
     data := None;
     files := None;
     req_timeout := timeout self |}.

(** The failure underneath a call that did not go through: the exception
    of the transport, or the [HTTPError] of a client-error or server-error
    status. *)
Inductive underlying_failure : result Response -> exn -> Prop :=
| TransportFailure (e : exn) :
    is_request_exception e = true ->
    underlying_failure (Raise e) e
| StatusFailure (r : Response) :
    400 <= status_code r < 600 ->
    underlying_failure (Ok r) (HTTPError (http_error_msg r)).

(** The optional text fields of a call, each with the keyword argument it
    comes from. *)
Definition optional_kwargs (c : Call) : list (string * Kwarg (option string)) :=
  match c with
  | SendMessage _ kw | SendGroupMessage _ _ kw =>
      [ ("title", kw_title kw); ("url", kw_url kw);
        ("url_title", kw_url_title kw); ("sound", kw_sound kw);
        ("device", kw_device kw) ]
  | SendEmergencyMessage _ kw =>
      [ ("title", em_title kw); ("url", em_url kw);
        ("url_title", em_url_title kw); ("sound", em_sound kw);
        ("device", em_device kw) ]
  | ListSounds => []
  end.

(** The same call with the attachment argument left out. *)
Definition drop_attachment (c : Call) : Call :=
  match c with
  | SendMessage message kw => SendMessage message (set_attachment kw Omitted)
  | SendGroupMessage message group_key kw =>
      SendGroupMessage message group_key (set_attachment kw Omitted)
  | _ => c
  end.

Definition set_user_key (self : Pushover) (k : string) : Pushover :=
  {| user_key := k; api_token := api_token self; api_url := api_url self;
     timeout := timeout self |}.

(** The files that [open] handed out, in order. *)
Definition opened_files (tr : list Event) : list BufferedReader :=
  flat_map (fun ev => match ev with EvOpen _ _ (Ok f) => [f] | _ => [] end) tr.

(** The keys of the payload each method builds, in the order of its dict
    literal ([list_sounds] builds no payload). *)
Definition payload_keys (c : Call) : list string :=
  match c with
  | SendMessage _ _ | SendGroupMessage _ _ _ =>
      [ "token"; "user"; "message"; "title"; "url"; "url_title"; "priority";
        "sound"; "device" ]
  | SendEmergencyMessage _ _ =>
      [ "token"; "user"; "message"; "title"; "url"; "url_title"; "priority";
        "retry"; "expire"; "sound"; "device" ]
  | ListSounds => []
  end.

(** The call posts a message (every method but [list_sounds]). *)
Definition is_send (c : Call) : bool :=
  match c with
  | ListSounds => false
  | _ => true
  end.

(** The priority argument of the two methods that have one. *)
Definition priority_kwarg (c : Call) : option (Kwarg (option Z)) :=
  match c with
  | SendMessage _ kw | SendGroupMessage _ _ kw => Some (kw_priority kw)
  | _ => None
  end.

(** The recipient each method puts in the "user" field. *)
Definition recipient (self : Pushover) (c : Call) : option string :=
  match c with
  | SendMessage _ _ | SendEmergencyMessage _ _ => Some (user_key self)
  | SendGroupMessage _ group_key _ => Some group_key
  | ListSounds => None
  end.

Definition message_of (c : Call) : option string :=
  match c with
  | SendMessage message _ | SendEmergencyMessage message _
  | SendGroupMessage message _ _ => Some message
  | ListSounds => None
  end.

(** The outside world raises exceptions of its own only: [open], the
    transport and the decoding of a body never raise [PushoverException]. *)
Definition raises_no_PushoverException (w : World) : Prop :=
  (forall path mode message cause,
     fs_open w path mode <> Raise (PushoverException message cause)) /\
  (forall req message cause,
     transport w req <> Raise (PushoverException message cause)) /\
  (forall req r message cause,
     transport w req = Ok r ->
     body_json r <> Raise (PushoverException message cause)).

(** Two more scripted calls: an emergency message with a title and an
    explicit [None] sound, and the request of the group scenario sent with
    the attachment of [Fixtures.with_file]. *)
Definition alarm_kwargs : EmergencyKwargs :=
  {| em_title := Given (Some "Alarm"); em_url := Omitted;
     em_url_title := Omitted; em_retry := Omitted; em_expire := Omitted;
     em_sound := Given None; em_device := Omitted |}.

Definition attached_request_to_G : Request :=
  {| method := POST;
     url := "https://api.pushover.net/1/messages.json";
     params := None;
     data := data Fixtures.request_to_G;
     files := Some [("attachment", Fixtures.the_file)];
     req_timeout := 10 |}.

(** * Lemmas *)

Section Combinators.

Context {A : Type}.

Lemma bind_Ok (B : Type) (m : M A) (k : A -> M B) w tr a tr' :
  m w tr = (Ok a, tr') -> bind m k w tr = k a w tr'.
Proof. unfold bind. intros ->. reflexivity. Qed.

Lemma bind_Raise (B : Type) (m : M A) (k : A -> M B) w tr e tr' :
  m w tr = (Raise e, tr') -> bind m k w tr = (Raise e, tr').
Proof. unfold bind. intros ->. reflexivity. Qed.

Lemma with_open_Ok (path mode : string) (body : BufferedReader -> M A)
    w tr file :
  fs_open w path mode = Ok file ->
  with_open path mode body w tr =
  (fst (body file w (tr ++ [EvOpen path mode (Ok file)])),
   snd (body file w (tr ++ [EvOpen path mode (Ok file)])) ++ [EvClose file])%list.
Proof.
  intros Hopen. unfold with_open, bind, open_, finally, close, emit.
  rewrite Hopen. destruct (body file w _); reflexivity.
Qed.

Lemma with_open_Raise (path mode : string) (body : BufferedReader -> M A)
    w tr e :
  fs_open w path mode = Raise e ->
  with_open path mode body w tr = (Raise e, (tr ++ [EvOpen path mode (Raise e)])%list).
Proof.
  intros Hopen. unfold with_open, bind, open_. rewrite Hopen. reflexivity.
Qed.

End Combinators.

(** The pattern the four methods share: send, check the status, translate
    the [requests] exceptions, decode. *)
Lemma checked_send (send : M Response) (prefix : string) w tr :
  (response <-
     try_except
       (response <- send ;; raise_for_status response ;;; ret response)
       is_request_exception
       (fun e => raise_from (failed prefix e) e) ;;
   json response) w tr
  = (settle prefix (fst (send w tr)), snd (send w tr)).
Proof.
  unfold bind, try_except, raise_for_status, raise_from, raise, ret, json,
    failed, settle, handled.
  destruct (send w tr) as [[r | e] tr']; simpl.
  - destruct ((400 <=? status_code r) && (status_code r <? 600)); reflexivity.
  - destruct (is_request_exception e); reflexivity.
Qed.

Lemma truthy_Some (path : string) :
  truthy (Some path) = true <-> path <> "".
Proof.
  unfold truthy. destruct (String.eqb_spec path ""); simpl; split;
    congruence.
Qed.

(** Every call has one of the three shapes. *)
Lemma run_shape (w : World) (self : Pushover) (c : Call) :
  Shape w c (run w self c).
Proof.
  unfold run, invoke, send_message, send_group_message,
    send_emergency_message, send_message_body, send_group_message_body,
    send_emergency_message_body, list_sounds.
  destruct c as [message kw | message kw | message group_key kw | ];
    rewrite checked_send.
  all: try (unfold requests_post, requests_get, request; simpl;
            apply Plain; reflexivity).
  all: destruct (kwarg None (kw_attachment kw)) as [path | ] eqn:Hatt;
    unfold if_truthy.
  all: try (unfold requests_post, request; simpl; apply Plain;
            [simpl; rewrite Hatt|]; reflexivity).
  all: destruct (truthy (Some path)) eqn:Htruthy.
  all: try (unfold requests_post, request; simpl; apply Plain;
            [simpl; rewrite Hatt; exact Htruthy | reflexivity]).
  all: apply truthy_Some in Htruthy.
  all: destruct (fs_open w path "rb") as [file | e] eqn:Hopen.
  all: try (rewrite (with_open_Ok _ _ _ _ _ _ Hopen);
            unfold requests_post, request; simpl;
            eapply Attached; simpl; eauto).
  all: rewrite (with_open_Raise _ _ _ _ _ _ Hopen); simpl;
    eapply NotOpened; simpl; eauto.
Qed.

(** Unfold a call down to the oracle queries, the way [run_shape] does, and
    leave one goal per way the attachment test and [open] can go. *)
Ltac unfold_call :=
  unfold outcome, trace, run, invoke, send_message, send_group_message,
    send_emergency_message, send_message_body, send_group_message_body,
    send_emergency_message_body, list_sounds in *;
  rewrite checked_send in *.

Ltac attachment_cases w kw :=
  let path := fresh "path" in
  let Hatt := fresh "Hatt" in
  let Htruthy := fresh "Htruthy" in
  let file := fresh "file" in
  let e := fresh "e" in
  let Hopen := fresh "Hopen" in
  destruct (kwarg None (kw_attachment kw)) as [path | ] eqn:Hatt;
  unfold if_truthy in *;
  [ destruct (truthy (Some path)) eqn:Htruthy;
    [ destruct (fs_open w path "rb") as [file | e] eqn:Hopen;
      [ rewrite (with_open_Ok _ _ _ _ _ _ Hopen) in *
      | rewrite (with_open_Raise _ _ _ _ _ _ Hopen) in * ]
    | ]
  | ];
  unfold requests_post, request in *; simpl in *.

Ltac pick_event H :=
  repeat (destruct H as [H | H]; [try discriminate H | ]);
  try contradiction H;
  try (injection H as <- <-).

(** The payload of [send_message], whatever the attachment. *)
Lemma send_message_request w self message kw req res :
  In (EvHttp req res) (trace w self (SendMessage message kw)) ->
  method req = POST /\ url req = api_url self /\ params req = None /\
  req_timeout req = timeout self /\
  data req = Some
    [ ("token", PyStr (api_token self));
      ("user", PyStr (user_key self));
      ("message", PyStr message);
      ("title", of_opt_str (kwarg None (kw_title kw)));
      ("url", of_opt_str (kwarg None (kw_url kw)));
      ("url_title", of_opt_str (kwarg None (kw_url_title kw)));
      ("priority", of_opt_int (kwarg (Some 0) (kw_priority kw)));
      ("sound", of_opt_str (kwarg None (kw_sound kw)));
      ("device", of_opt_str (kwarg None (kw_device kw))) ].
Proof.
  intros Hin. unfold_call. attachment_cases w kw.
  all: pick_event Hin; simpl; auto.
Qed.

(** The payload of [send_group_message]. *)
Lemma send_group_message_request w self message group_key kw req res :
  In (EvHttp req res) (trace w self (SendGroupMessage message group_key kw)) ->
  method req = POST /\ url req = api_url self /\ params req = None /\
  req_timeout req = timeout self /\
  data req = Some
    [ ("token", PyStr (api_token self));
      ("user", PyStr group_key);
      ("message", PyStr message);
      ("title", of_opt_str (kwarg None (kw_title kw)));
      ("url", of_opt_str (kwarg None (kw_url kw)));
      ("url_title", of_opt_str (kwarg None (kw_url_title kw)));
      ("priority", of_opt_int (kwarg (Some 0) (kw_priority kw)));
      ("sound", of_opt_str (kwarg None (kw_sound kw)));
      ("device", of_opt_str (kwarg None (kw_device kw))) ].
Proof.
  intros Hin. unfold_call. attachment_cases w kw.
  all: pick_event Hin; simpl; auto.
Qed.

(** [send_emergency_message] makes one call. *)
Lemma send_emergency_message_trace w self message kw :
  trace w self (SendEmergencyMessage message kw) =
  [EvHttp (emergency_request self message kw)
          (transport w (emergency_request self message kw))].
Proof. unfold_call. reflexivity. Qed.

(** [list_sounds] makes one call. *)
Lemma list_sounds_trace w self :
  trace w self ListSounds =
  [EvHttp (sounds_request self) (transport w (sounds_request self))].
Proof. unfold_call. reflexivity. Qed.

(** In each shape, the request in the trace and its answer. *)
Lemma shape_http w c out tr req res :
  Shape w c (out, tr) -> In (EvHttp req res) tr ->
  res = transport w req /\ out = settle (failure_prefix c) res /\
  length (http_calls tr) = 1%nat.
Proof.
  intros Hshape Hin. inversion Hshape; subst; simpl in Hin.
  all: pick_event Hin; auto.
Qed.

Lemma called_then_settled w self c req res :
  In (EvHttp req res) (trace w self c) ->
  outcome w self c = settle (failure_prefix c) res.
Proof.
  intros Hin. unfold outcome, trace in *.
  pose proof (run_shape w self c) as Hshape.
  destruct (run w self c) as [out tr]. simpl in *.
  eapply shape_http in Hshape as (_ & -> & _); eauto.
Qed.

(** The three shapes, as equations on [outcome] and [trace]. *)
Lemma run_cases (w : World) (self : Pushover) (c : Call) :
  (exists req,
     truthy (attachment_of c) = false /\ files req = None /\
     outcome w self c = settle (failure_prefix c) (transport w req) /\
     trace w self c = [EvHttp req (transport w req)]) \/
  (exists path file req,
     attachment_of c = Some path /\ path <> "" /\
     fs_open w path "rb" = Ok file /\
     files req = Some [("attachment", file)] /\
     outcome w self c = settle (failure_prefix c) (transport w req) /\
     trace w self c =
       [EvOpen path "rb" (Ok file); EvHttp req (transport w req);
        EvClose file]) \/
  (exists path e,
     attachment_of c = Some path /\ path <> "" /\
     fs_open w path "rb" = Raise e /\
     outcome w self c = handled (failure_prefix c) e /\
     trace w self c = [EvOpen path "rb" (Raise e)]).
Proof.
  unfold outcome, trace.
  destruct (run_shape w self c) as [req | path file req | path e]; simpl.
  - left. exists req. auto.
  - right. left. exists path, file, req. auto 7.
  - right. right. exists path, e. auto 6.
Qed.

(** A call whose attachment does not open is not one whose [open] went
    well, nor one without an attachment. *)
Lemma open_fails_true (w : World) (c : Call) (path : string) (e : exn) :
  attachment_of c = Some path -> path <> "" ->
  fs_open w path "rb" = Raise e ->
  open_fails w c = true.
Proof.
  intros Hatt Hpath Hopen. unfold open_fails, if_truthy.
  rewrite Hatt. apply truthy_Some in Hpath. rewrite Hpath, Hopen. reflexivity.
Qed.

(** A call whose attachment, if any, opens makes one request, and ends the
    way the answer to that request is settled. *)
Lemma one_request_settled (w : World) (self : Pushover) (c : Call) :
  open_fails w c = false ->
  exists req,
    In (EvHttp req (transport w req)) (trace w self c) /\
    http_calls (trace w self c) = [(req, transport w req)] /\
    outcome w self c = settle (failure_prefix c) (transport w req).
Proof.
  intros Hopens.
  destruct (run_cases w self c)
    as [(req & _ & _ & Hout & Htr)
       | [(path & file & req & _ & _ & _ & _ & Hout & Htr)
         | (path & e & Hatt & Hpath & Hopen & _)]].
  - exists req. rewrite Htr. simpl. auto.
  - exists req. rewrite Htr. simpl. auto.
  - rewrite (open_fails_true _ _ _ _ Hatt Hpath Hopen) in Hopens.
    discriminate.
Qed.

(** ** The tests of [tests/test_pushover_package.py], replayed *)

Example test_send_message_success :
  outcome Fixtures.world_200 Fixtures.pushover
          (SendMessage "Test message" no_kwargs) = Ok Fixtures.status_1 /\
  length (http_calls (trace Fixtures.world_200 Fixtures.pushover
                        (SendMessage "Test message" no_kwargs))) = 1%nat.
Proof. split; reflexivity. Qed.

Example test_send_group_message_with_attachment_failure :
  outcome Fixtures.world_400 Fixtures.pushover
          (SendGroupMessage "Test message" "test_group_key" Fixtures.with_file) =
  Raise (PushoverException "Failed to send group message: Bad Request"
                           (Some (HTTPError "Bad Request"))).
Proof. reflexivity. Qed.

Example test_list_sounds_failure :
  outcome Fixtures.world_400 Fixtures.pushover ListSounds =
  Raise (PushoverException "Failed to list sounds: Bad Request"
                           (Some (HTTPError "Bad Request"))).
Proof. reflexivity. Qed.

(** A transport failure instead of a bad status. *)
Example send_emergency_message_timeout :
  outcome Fixtures.world_timeout Fixtures.pushover
          (SendEmergencyMessage "Emergency message" no_em_kwargs) =
  Raise (PushoverException "Failed to send emergency message: timed out"
                           (Some (RequestException "timed out"))).
Proof. reflexivity. Qed.

(** * The claims *)

(** ** Error translation *)

(** C1, as the code has it.  For each of the four methods: when the request
    that was issued ends in a transport failure (an exception of the
    [requests] hierarchy), or comes back with a client-error or server-error
    status (400 to 599, the codes [raise_for_status] rejects), the call
    raises [PushoverException] and nothing else; its message is the prefix of
    the method followed by [str] of the underlying failure, and the failure
    is its cause. *)
Theorem request_failure_is_wrapped (w : World) (self : Pushover) (c : Call)
    (req : Request) (res : result Response) (e : exn) :
  In (EvHttp req res) (trace w self c) ->
  underlying_failure res e ->
  outcome w self c =
  Raise (PushoverException (failure_prefix c ++ str e) (Some e)).
Proof.
  intros Hin Hfail. rewrite (called_then_settled _ _ _ _ _ Hin).
  destruct Hfail as [e He | r Hr]; unfold settle, handled.
  - rewrite He. reflexivity.
  - replace ((400 <=? status_code r) && (status_code r <? 600)) with true.
    + reflexivity.
    + symmetry. apply andb_true_iff. split; [apply Z.leb_le | apply Z.ltb_lt]; lia.
Qed.

(** The failing test of [test_send_message_failure]: status 400, error text
    "Bad Request". *)
Lemma request_failure_is_wrapped_witness :
  outcome Fixtures.world_400 Fixtures.pushover
          (SendMessage "Test message" no_kwargs) =
  Raise (PushoverException "Failed to send message: Bad Request"
                           (Some (HTTPError "Bad Request"))).
Proof.
  refine (request_failure_is_wrapped Fixtures.world_400 Fixtures.pushover
            (SendMessage "Test message" no_kwargs) _ _
            (HTTPError "Bad Request") _ _).
  - simpl. left. reflexivity.
  - apply (StatusFailure
             {| status_code := 400; http_error_msg := "Bad Request";
                body_json := Ok (JObj [("status", JNum 0)]) |}).
    simpl. lia.
Defined.

(** C1, as stated, fails: a status outside 2xx is not always a failure.
    [send_message(message="Test message")], answered with status 304 and the
    body [{"status": 1}], returns the body: [raise_for_status] raises nothing
    for a 3xx code. *)
Lemma status_304_is_not_a_failure :
  exists req r,
    In (EvHttp req (Ok r))
       (trace Fixtures.world_304 Fixtures.pushover
              (SendMessage "Test message" no_kwargs)) /\
    status_code r = 304 /\
    ~ (200 <= status_code r < 300) /\
    outcome Fixtures.world_304 Fixtures.pushover
            (SendMessage "Test message" no_kwargs) = Ok Fixtures.status_1.
Proof.
  eexists. eexists. split; [left; reflexivity | ].
  split; [reflexivity | ]. split; [simpl; lia | reflexivity].
Qed.

(** C2.  For each of the four methods, in any world where the attachment
    of the call, if there is one, opens: the call makes one request, and
    when the transport answers that request with a 2xx status and a body
    that decodes to [B], the call returns [B] itself. *)
Theorem success_returns_body (w : World) (self : Pushover) (c : Call) :
  open_fails w c = false ->
  exists req,
    http_calls (trace w self c) = [(req, transport w req)] /\
    forall (r : Response) (B : Json),
      transport w req = Ok r ->
      200 <= status_code r < 300 ->
      body_json r = Ok B ->
      outcome w self c = Ok B.
Proof.
  intros Hopens.
  destruct (one_request_settled w self c Hopens) as (req & _ & Hcalls & Hout).
  exists req. split; [exact Hcalls | ].
  intros r B Hres Hstatus Hbody. rewrite Hout, Hres. unfold settle.
  replace (status_code r <? 600) with true by (symmetry; apply Z.ltb_lt; lia).
  replace (400 <=? status_code r) with false by (symmetry; apply Z.leb_gt; lia).
  exact Hbody.
Qed.

(** [test_send_message_with_attachment_success]: status 200, body
    [{"status": 1}]. *)
Lemma success_returns_body_witness :
  outcome Fixtures.world_200 Fixtures.pushover
          (SendMessage "Test message" Fixtures.with_file) =
  Ok Fixtures.status_1.
Proof.
  destruct (success_returns_body Fixtures.world_200 Fixtures.pushover
              (SendMessage "Test message" Fixtures.with_file))
    as (req & _ & Hreturns).
  - reflexivity.
  - apply (Hreturns {| status_code := 200; http_error_msg := "";
                       body_json := Ok Fixtures.status_1 |}).
    + reflexivity.
    + simpl. lia.
    + reflexivity.
Defined.

(** C6.  For each of the four methods: when the request that was issued
    comes back with a 2xx status and decoding the body raises [e], the call
    raises that same [e]; it is not turned into a [PushoverException]. *)
Theorem parse_failure_propagates (w : World) (self : Pushover) (c : Call)
    (req : Request) (r : Response) (e : exn) :
  In (EvHttp req (Ok r)) (trace w self c) ->
  200 <= status_code r < 300 ->
  body_json r = Raise e ->
  outcome w self c = Raise e.
Proof.
  intros Hin Hstatus Hbody. rewrite (called_then_settled _ _ _ _ _ Hin).
  unfold settle.
  replace (status_code r <? 600) with true by (symmetry; apply Z.ltb_lt; lia).
  replace (400 <=? status_code r) with false by (symmetry; apply Z.leb_gt; lia).
  exact Hbody.
Qed.

Lemma parse_failure_propagates_witness :
  outcome Fixtures.world_bad_json Fixtures.pushover
          (SendEmergencyMessage "Emergency message" no_em_kwargs) =
  Raise (JSONDecodeError "Expecting value: line 1 column 1 (char 0)").
Proof.
  eapply (parse_failure_propagates Fixtures.world_bad_json Fixtures.pushover
            (SendEmergencyMessage "Emergency message" no_em_kwargs)
            (emergency_request Fixtures.pushover "Emergency message" no_em_kwargs)
            {| status_code := 200; http_error_msg := "";
               body_json := Raise (JSONDecodeError
                 "Expecting value: line 1 column 1 (char 0)") |}).
  - simpl. left. reflexivity.
  - simpl. lia.
  - reflexivity.
Defined.

(** ** Request construction *)

(** C3.  [send_emergency_message] makes one request, whose "priority" field
    is 2 for every message and every keyword argument, on every client; no
    parameter of the method reaches that field.  When [retry] is left out of
    the call the field "retry" is 30, and when [expire] is left out the
    field "expire" is 3600, each whatever the other arguments are. *)
Theorem emergency_priority_is_2 (w : World) (self : Pushover)
    (message : string) (kw : EmergencyKwargs) :
  exists req d,
    trace w self (SendEmergencyMessage message kw) =
      [EvHttp req (transport w req)] /\
    data req = Some d /\
    dict_get "priority" d = Some (PyInt 2) /\
    (em_retry kw = Omitted -> dict_get "retry" d = Some (PyInt 30)) /\
    (em_expire kw = Omitted -> dict_get "expire" d = Some (PyInt 3600)).
Proof.
  eexists. eexists.
  split; [apply send_emergency_message_trace | ].
  split; [reflexivity | ]. simpl.
  split; [reflexivity | ].
  split; intros ->; reflexivity.
Qed.

(** A call that gives [expire] and leaves [retry] out. *)
Lemma emergency_priority_is_2_witness :
  exists req d,
    trace Fixtures.world_200 Fixtures.pushover
      (SendEmergencyMessage "Emergency message"
         {| em_title := Omitted; em_url := Omitted; em_url_title := Omitted;
            em_retry := Omitted; em_expire := Given (Some 600);
            em_sound := Omitted; em_device := Omitted |}) =
      [EvHttp req (transport Fixtures.world_200 req)] /\
    data req = Some d /\
    dict_get "priority" d = Some (PyInt 2) /\
    dict_get "retry" d = Some (PyInt 30) /\
    dict_get "expire" d = Some (PyInt 600).
Proof.
  destruct (emergency_priority_is_2 Fixtures.world_200 Fixtures.pushover
              "Emergency message"
              {| em_title := Omitted; em_url := Omitted;
                 em_url_title := Omitted;
                 em_retry := Omitted; em_expire := Given (Some 600);
                 em_sound := Omitted; em_device := Omitted |})
    as (req & d & Htrace & Hdata & Hpriority & Hretry & _).
  exists req, d.
  split; [exact Htrace | ]. split; [exact Hdata | ].
  split; [exact Hpriority | ]. split; [apply Hretry; reflexivity | ].
  simpl in Htrace. injection Htrace as <-.
  simpl in Hdata. injection Hdata as <-. reflexivity.
Defined.

(** C4.  Every request [send_group_message] makes carries the [group_key]
    argument in its "user" field and the client's [api_token] in its "token"
    field; when [group_key] differs from the client's [user_key], the "user"
    field is not the [user_key]. *)
Theorem group_message_goes_to_group_key (w : World) (self : Pushover)
    (message group_key : string) (kw : MessageKwargs)
    (req : Request) (res : result Response) :
  In (EvHttp req res) (trace w self (SendGroupMessage message group_key kw)) ->
  exists d,
    data req = Some d /\
    dict_get "user" d = Some (PyStr group_key) /\
    dict_get "token" d = Some (PyStr (api_token self)) /\
    (group_key <> user_key self ->
     dict_get "user" d <> Some (PyStr (user_key self))).
Proof.
  intros Hin.
  apply send_group_message_request in Hin as (_ & _ & _ & _ & Hdata).
  eexists. split; [exact Hdata | ]. simpl.
  repeat split; try reflexivity. congruence.
Qed.

(** The scenario of the specification: client with [user_key] "U", group
    key "G". *)
Lemma group_message_goes_to_group_key_witness :
  exists d,
    data Fixtures.request_to_G = Some d /\
    dict_get "user" d = Some (PyStr "G") /\
    dict_get "token" d = Some (PyStr "T") /\
    dict_get "user" d <> Some (PyStr "U").
Proof.
  destruct (group_message_goes_to_group_key Fixtures.world_200
              Fixtures.client_U_T "hi" "G" no_kwargs Fixtures.request_to_G
              (transport Fixtures.world_200 Fixtures.request_to_G))
    as (d & Hd & Huser & Htoken & Hdiff).
  - simpl. left. reflexivity.
  - exists d. repeat split; auto. apply Hdiff. simpl. discriminate.
Defined.

(** C7.  Every call of [send_message], [send_emergency_message] or
    [send_group_message] whose attachment, if there is one, opens makes one
    request, and the payload handed to [requests.post] with it has each of
    the keys "title", "url", "url_title", "sound" and "device"; a field the
    caller left out is there with the value [None]. *)
Theorem unset_optionals_are_sent_as_None (w : World) (self : Pushover)
    (c : Call) :
  is_send c = true ->
  open_fails w c = false ->
  map fst (optional_kwargs c) =
    ["title"; "url"; "url_title"; "sound"; "device"] /\
  exists req d,
    http_calls (trace w self c) = [(req, transport w req)] /\
    data req = Some d /\
    forall (key : string) (k : Kwarg (option string)),
      In (key, k) (optional_kwargs c) ->
      In key (dict_keys d) /\
      (k = Omitted -> dict_get key d = Some PyNone).
Proof.
  intros Hsend Hopens.
  split; [destruct c; try discriminate Hsend; reflexivity | ].
  destruct (one_request_settled w self c Hopens) as (req & Hin & Hcalls & _).
  exists req.
  destruct c as [message kw | message kw | message group_key kw | ];
    try discriminate Hsend.
  - apply send_message_request in Hin as (_ & _ & _ & _ & Hdata).
    eexists. split; [exact Hcalls | ]. split; [exact Hdata | ].
    intros key k Hkey. simpl in Hkey.
    pick_event Hkey; simpl; split; auto 10; intros ->; reflexivity.
  - rewrite send_emergency_message_trace in Hin.
    destruct Hin as [Hin | []]. injection Hin as Hreq _. subst req.
    eexists. split; [exact Hcalls | ]. split; [reflexivity | ].
    intros key k Hkey. simpl in Hkey.
    pick_event Hkey; simpl; split; auto 12; intros ->; reflexivity.
  - apply send_group_message_request in Hin as (_ & _ & _ & _ & Hdata).
    eexists. split; [exact Hcalls | ]. split; [exact Hdata | ].
    intros key k Hkey. simpl in Hkey.
    pick_event Hkey; simpl; split; auto 10; intros ->; reflexivity.
Qed.

(** [send_message(message="Test message", attachment="path/to/file")]:
    "sound" is among the keys, with [None]. *)
Lemma unset_optionals_are_sent_as_None_witness :
  exists req d,
    http_calls (trace Fixtures.world_200 Fixtures.pushover
                  (SendMessage "Test message" Fixtures.with_file)) =
      [(req, transport Fixtures.world_200 req)] /\
    data req = Some d /\
    In "sound" (dict_keys d) /\
    dict_get "sound" d = Some PyNone.
Proof.
  destruct (unset_optionals_are_sent_as_None Fixtures.world_200
              Fixtures.pushover
              (SendMessage "Test message" Fixtures.with_file))
    as (_ & req & d & Hcalls & Hdata & Hkeys).
  - reflexivity.
  - reflexivity.
  - exists req, d. split; [exact Hcalls | ]. split; [exact Hdata | ].
    destruct (Hkeys "sound" Omitted) as (Hin & Hnone).
    + simpl. right. right. right. left. reflexivity.
    + split; [exact Hin | apply Hnone; reflexivity].
Defined.

(** C8.  [list_sounds] makes one request: a GET to
    https://api.pushover.net/1/sounds.json whose [params] is the single entry
    "token", set from the client's [api_token], with no [data] and no
    [files].  The request is the same whatever the client's [user_key]. *)
Theorem list_sounds_sends_only_the_token :
  forall (w : World) (self : Pushover),
    trace w self ListSounds =
      [EvHttp (sounds_request self) (transport w (sounds_request self))] /\
    method (sounds_request self) = GET /\
    url (sounds_request self) = "https://api.pushover.net/1/sounds.json" /\
    params (sounds_request self) = Some [("token", PyStr (api_token self))] /\
    data (sounds_request self) = None /\
    files (sounds_request self) = None /\
    forall k : string,
      trace w (set_user_key self k) ListSounds = trace w self ListSounds.
Proof.
  intros w self.
  split; [apply list_sounds_trace | ].
  do 5 (split; [reflexivity | ]).
  intros k. rewrite !list_sounds_trace. reflexivity.
Qed.

(** ** Attachments and the number of requests *)

(** C5, as the code has it.  [send_message] or [send_group_message] called
    with a non-empty attachment path that [open] can open: the path is
    opened once, in mode "rb"; one POST is made, with the opened file under
    "attachment" in [files]; the file is then closed, whatever the transport
    answered or raised; nothing else happens. *)
Theorem attachment_is_opened_sent_closed (w : World) (self : Pushover)
    (c : Call) (path : string) (file : BufferedReader) :
  attachment_of c = Some path ->
  path <> "" ->
  fs_open w path "rb" = Ok file ->
  exists req,
    trace w self c =
      [EvOpen path "rb" (Ok file); EvHttp req (transport w req); EvClose file] /\
    method req = POST /\
    files req = Some [("attachment", file)].
Proof.
  intros Hatt Hpath Hopen.
  destruct c as [message kw | message kw | message group_key kw | ];
    try discriminate Hatt; simpl in Hatt.
  all: unfold_call; attachment_cases w kw; try discriminate Hatt.
  all: injection Hatt as ->.
  all: try (rewrite Hopen in *; discriminate).
  all: try (destruct (String.eqb_spec path ""); [contradiction | discriminate]).
  all: rewrite Hopen in *.
  all: match goal with H : Ok _ = Ok _ |- _ => injection H as <- end.
  all: eexists; split; [reflexivity | ]; simpl; auto.
Qed.

(** [test_send_message_with_attachment_failure]: the file is closed although
    the request is answered with status 400. *)
Lemma attachment_is_opened_sent_closed_witness :
  exists req,
    trace Fixtures.world_400 Fixtures.pushover
          (SendMessage "Test message" Fixtures.with_file) =
      [EvOpen "path/to/file" "rb" (Ok Fixtures.the_file);
       EvHttp req (transport Fixtures.world_400 req);
       EvClose Fixtures.the_file] /\
    method req = POST /\
    files req = Some [("attachment", Fixtures.the_file)].
Proof.
  apply (attachment_is_opened_sent_closed Fixtures.world_400 Fixtures.pushover
           (SendMessage "Test message" Fixtures.with_file)
           "path/to/file" Fixtures.the_file).
  - reflexivity.
  - discriminate.
  - reflexivity.
Defined.

(** C5, as stated, fails: an attachment path is not always opened, sent and
    closed.  [send_group_message(message="Test message",
    group_key="test_group_key", attachment="path/to/file")] where [open]
    raises [OSError]: the one call of [open] is all that happens, no request
    is made, nothing is closed, and the [OSError] reaches the caller. *)
Lemma unopenable_attachment_is_not_sent :
  trace Fixtures.world_no_file Fixtures.pushover
        (SendGroupMessage "Test message" "test_group_key" Fixtures.with_file) =
    [EvOpen "path/to/file" "rb"
            (Raise (OSError "[Errno 2] No such file or directory"))] /\
  http_calls (trace Fixtures.world_no_file Fixtures.pushover
        (SendGroupMessage "Test message" "test_group_key" Fixtures.with_file)) = [] /\
  close_calls (trace Fixtures.world_no_file Fixtures.pushover
        (SendGroupMessage "Test message" "test_group_key" Fixtures.with_file)) = [] /\
  outcome Fixtures.world_no_file Fixtures.pushover
        (SendGroupMessage "Test message" "test_group_key" Fixtures.with_file) =
    Raise (OSError "[Errno 2] No such file or directory").
Proof. repeat split. Qed.

(** C9, as the code has it.  Each call of each of the four methods makes
    exactly one request, whether it then succeeds or fails, except a call
    whose attachment does not open: that one makes none. *)
Theorem one_request_per_call (w : World) (self : Pushover) (c : Call) :
  length (http_calls (trace w self c)) =
  if open_fails w c then 0%nat else 1%nat.
Proof.
  unfold trace, open_fails. pose proof (run_shape w self c) as Hshape.
  destruct (run w self c) as [out tr]. simpl.
  inversion Hshape as [req Hfalse Hfiles | path file req Hatt Hpath Hopen Hfiles
                      | path e Hatt Hpath Hopen]; subst; simpl.
  - unfold if_truthy. rewrite Hfalse.
    destruct (attachment_of c); reflexivity.
  - unfold if_truthy. rewrite Hatt, Hopen.
    destruct (truthy (Some path)); reflexivity.
  - unfold if_truthy. rewrite Hatt, Hopen.
    apply truthy_Some in Hpath. rewrite Hpath. reflexivity.
Qed.

(** C9, as stated, fails: a call can fail without any request.
    [send_message(message="Test message", attachment="path/to/file")] where
    [open] raises [OSError] fails with that error and makes no request. *)
Lemma failed_open_makes_no_request :
  length (http_calls (trace Fixtures.world_no_file Fixtures.pushover
            (SendMessage "Test message" Fixtures.with_file))) = 0%nat /\
  outcome Fixtures.world_no_file Fixtures.pushover
          (SendMessage "Test message" Fixtures.with_file) =
    Raise (OSError "[Errno 2] No such file or directory").
Proof. split; reflexivity. Qed.

(** C10.  [send_message] or [send_group_message] called with the empty
    string as attachment does what the same call without the attachment
    argument does: same result, same trace; [open] is not called, and the one
    request is a POST with the payload in [data] and no [files]. *)
Theorem empty_attachment_is_no_attachment (w : World) (self : Pushover)
    (c : Call) :
  attachment_of c = Some "" ->
  run w self c = run w self (drop_attachment c) /\
  open_calls (trace w self c) = [] /\
  exists req d,
    trace w self c = [EvHttp req (transport w req)] /\
    method req = POST /\
    data req = Some d /\
    files req = None.
Proof.
  intros Hatt.
  destruct c as [message kw | message kw | message group_key kw | ];
    try discriminate Hatt; simpl in Hatt.
  all: unfold drop_attachment, set_attachment.
  all: unfold_call; rewrite ?checked_send; simpl; rewrite Hatt; simpl.
  all: unfold requests_post, request; simpl.
  all: split; [reflexivity | split; [reflexivity | ] ].
  all: eexists; eexists; split; [reflexivity | ]; simpl; auto.
Qed.

Lemma empty_attachment_is_no_attachment_witness :
  run Fixtures.world_no_file Fixtures.pushover
      (SendMessage "Test message" (set_attachment no_kwargs (Given (Some "")))) =
  run Fixtures.world_no_file Fixtures.pushover
      (SendMessage "Test message" no_kwargs).
Proof.
  apply (empty_attachment_is_no_attachment Fixtures.world_no_file
           Fixtures.pushover
           (SendMessage "Test message"
              (set_attachment no_kwargs (Given (Some ""))))).
  reflexivity.
Defined.

(** * Further properties of the methods *)

(** ** What every request carries *)

(** Every request any of the four methods makes is given the client's
    [timeout]. *)
Theorem every_request_has_the_client_timeout (w : World) (self : Pushover)
    (c : Call) (req : Request) (res : result Response) :
  In (EvHttp req res) (trace w self c) ->
  req_timeout req = timeout self.
Proof.
  intros Hin.
  destruct c as [message kw | message kw | message group_key kw | ].
  - apply send_message_request in Hin. tauto.
  - rewrite send_emergency_message_trace in Hin. pick_event Hin. reflexivity.
  - apply send_group_message_request in Hin. tauto.
  - rewrite list_sounds_trace in Hin. pick_event Hin. reflexivity.
Qed.

Lemma every_request_has_the_client_timeout_witness :
  req_timeout (sounds_request (Pushover_init "U" "T" (Given 25))) = 25.
Proof.
  apply (every_request_has_the_client_timeout Fixtures.world_200
           (Pushover_init "U" "T" (Given 25)) ListSounds
           (sounds_request (Pushover_init "U" "T" (Given 25)))
           (transport Fixtures.world_200
              (sounds_request (Pushover_init "U" "T" (Given 25))))).
  simpl. left. reflexivity.
Defined.

(** A client built by [__init__] sends every message by POST to
    https://api.pushover.net/1/messages.json, with no query parameters, and
    with the timeout it was built with, 10 when none was given. *)
Theorem built_client_posts_to_messages_url (w : World)
    (user_key api_token : string) (timeout : Kwarg Z) (c : Call)
    (req : Request) (res : result Response) :
  is_send c = true ->
  In (EvHttp req res) (trace w (Pushover_init user_key api_token timeout) c) ->
  method req = POST /\
  url req = "https://api.pushover.net/1/messages.json" /\
  params req = None /\
  (timeout = Omitted -> req_timeout req = 10) /\
  (forall t, timeout = Given t -> req_timeout req = t).
Proof.
  intros Hsend Hin.
  destruct c as [message kw | message kw | message group_key kw | ];
    try discriminate Hsend.
  - apply send_message_request in Hin as (-> & -> & -> & -> & _).
    repeat split; intros; subst; reflexivity.
  - rewrite send_emergency_message_trace in Hin. pick_event Hin.
    repeat split; intros; subst; reflexivity.
  - apply send_group_message_request in Hin as (-> & -> & -> & -> & _).
    repeat split; intros; subst; reflexivity.
Qed.

Lemma built_client_posts_to_messages_url_witness :
  method Fixtures.request_to_G = POST /\
  url Fixtures.request_to_G = "https://api.pushover.net/1/messages.json" /\
  params Fixtures.request_to_G = None /\
  req_timeout Fixtures.request_to_G = 10.
Proof.
  destruct (built_client_posts_to_messages_url Fixtures.world_200
              "U" "T" Omitted (SendGroupMessage "hi" "G" no_kwargs)
              Fixtures.request_to_G
              (transport Fixtures.world_200 Fixtures.request_to_G))
    as (Hm & Hu & Hp & Ht & _).
  - reflexivity.
  - simpl. left. reflexivity.
  - repeat split; auto.
Defined.

(** Every request that sends a message carries the client's [api_token] as
    "token", the text as "message", and as "user" the client's [user_key]
    ([send_message], [send_emergency_message]) or the [group_key]
    ([send_group_message]). *)
Theorem message_fields_are_sent (w : World) (self : Pushover) (c : Call)
    (req : Request) (res : result Response) (message user : string) :
  In (EvHttp req res) (trace w self c) ->
  message_of c = Some message ->
  recipient self c = Some user ->
  exists d,
    data req = Some d /\
    dict_get "token" d = Some (PyStr (api_token self)) /\
    dict_get "user" d = Some (PyStr user) /\
    dict_get "message" d = Some (PyStr message).
Proof.
  intros Hin Hmsg Huser.
  destruct c as [m kw | m kw | m group_key kw | ]; try discriminate Hmsg;
    simpl in Hmsg, Huser; injection Hmsg as ->; injection Huser as <-.
  - apply send_message_request in Hin as (_ & _ & _ & _ & Hdata).
    eexists. split; [exact Hdata | ]. repeat split.
  - rewrite send_emergency_message_trace in Hin. pick_event Hin.
    eexists. split; [reflexivity | ]. repeat split.
  - apply send_group_message_request in Hin as (_ & _ & _ & _ & Hdata).
    eexists. split; [exact Hdata | ]. repeat split.
Qed.

Lemma message_fields_are_sent_witness :
  exists d,
    data (emergency_request Fixtures.pushover "Emergency message" no_em_kwargs)
      = Some d /\
    dict_get "token" d = Some (PyStr "test_api_token") /\
    dict_get "user" d = Some (PyStr "test_user_key") /\
    dict_get "message" d = Some (PyStr "Emergency message").
Proof.
  apply (message_fields_are_sent Fixtures.world_400 Fixtures.pushover
           (SendEmergencyMessage "Emergency message" no_em_kwargs)
           (emergency_request Fixtures.pushover "Emergency message" no_em_kwargs)
           (transport Fixtures.world_400
              (emergency_request Fixtures.pushover "Emergency message"
                 no_em_kwargs))).
  - simpl. left. reflexivity.
  - reflexivity.
  - reflexivity.
Defined.

(** [send_message] and [send_group_message] send the "priority" the caller
    gave, [None] included, and 0 when the argument is left out. *)
Theorem priority_defaults_to_0 (w : World) (self : Pushover) (c : Call)
    (req : Request) (res : result Response) (k : Kwarg (option Z)) :
  In (EvHttp req res) (trace w self c) ->
  priority_kwarg c = Some k ->
  exists d,
    data req = Some d /\
    (k = Omitted -> dict_get "priority" d = Some (PyInt 0)) /\
    (forall n, k = Given (Some n) -> dict_get "priority" d = Some (PyInt n)) /\
    (k = Given None -> dict_get "priority" d = Some PyNone).
Proof.
  intros Hin Hk.
  destruct c as [m kw | m kw | m group_key kw | ]; try discriminate Hk;
    simpl in Hk; injection Hk as <-.
  - apply send_message_request in Hin as (_ & _ & _ & _ & Hdata).
    eexists. split; [exact Hdata | ]. simpl.
    repeat split; intros; match goal with H : kw_priority _ = _ |- _ => rewrite H end;
      reflexivity.
  - apply send_group_message_request in Hin as (_ & _ & _ & _ & Hdata).
    eexists. split; [exact Hdata | ]. simpl.
    repeat split; intros; match goal with H : kw_priority _ = _ |- _ => rewrite H end;
      reflexivity.
Qed.

Lemma priority_defaults_to_0_witness :
  exists d,
    data Fixtures.request_to_G = Some d /\
    dict_get "priority" d = Some (PyInt 0).
Proof.
  destruct (priority_defaults_to_0 Fixtures.world_200 Fixtures.client_U_T
              (SendGroupMessage "hi" "G" no_kwargs) Fixtures.request_to_G
              (transport Fixtures.world_200 Fixtures.request_to_G) Omitted)
    as (d & Hd & H0 & _).
  - simpl. left. reflexivity.
  - reflexivity.
  - exists d. split; [exact Hd | apply H0; reflexivity].
Defined.

(** The payload of a request that sends a message has exactly the keys of
    the method's dict literal, in that order: nine for [send_message] and
    [send_group_message], with "retry" and "expire" added after "priority"
    for [send_emergency_message].  No key occurs twice, and the attachment
    path is never among the form fields. *)
Theorem payload_has_the_literal_keys (w : World) (self : Pushover) (c : Call)
    (req : Request) (res : result Response) :
  In (EvHttp req res) (trace w self c) ->
  is_send c = true ->
  exists d,
    data req = Some d /\
    dict_keys d = payload_keys c /\
    NoDup (dict_keys d) /\
    ~ In "attachment" (dict_keys d).
Proof.
  intros Hin Hsend.
  assert (Hfresh : forall keys : list string,
            keys = payload_keys c ->
            NoDup keys /\ ~ In "attachment" keys).
  { intros keys ->. split.
    - destruct c; simpl;
        repeat (constructor; [simpl; intuition discriminate | ]); constructor.
    - destruct c; simpl; intuition discriminate. }
  destruct c as [m kw | m kw | m group_key kw | ]; try discriminate Hsend.
  - apply send_message_request in Hin as (_ & _ & _ & _ & Hdata).
    eexists. split; [exact Hdata | ]. split; [reflexivity | ].
    apply Hfresh. reflexivity.
  - rewrite send_emergency_message_trace in Hin. pick_event Hin.
    eexists. split; [reflexivity | ]. split; [reflexivity | ].
    apply Hfresh. reflexivity.
  - apply send_group_message_request in Hin as (_ & _ & _ & _ & Hdata).
    eexists. split; [exact Hdata | ]. split; [reflexivity | ].
    apply Hfresh. reflexivity.
Qed.

Lemma payload_has_the_literal_keys_witness :
  exists d,
    data Fixtures.request_to_G = Some d /\
    dict_keys d =
      [ "token"; "user"; "message"; "title"; "url"; "url_title"; "priority";
        "sound"; "device" ].
Proof.
  destruct (payload_has_the_literal_keys Fixtures.world_200 Fixtures.client_U_T
              (SendGroupMessage "hi" "G" no_kwargs) Fixtures.request_to_G
              (transport Fixtures.world_200 Fixtures.request_to_G))
    as (d & Hd & Hkeys & _).
  - simpl. left. reflexivity.
  - reflexivity.
  - exists d. split; [exact Hd | exact Hkeys].
Defined.

(** An optional text field the caller gave ("title", "url", "url_title",
    "sound", "device") is sent as given: the string unchanged, or [None] for
    an explicit [None]. *)
Theorem given_optionals_are_sent_unchanged (w : World) (self : Pushover)
    (c : Call) (req : Request) (res : result Response)
    (key : string) (v : option string) :
  In (EvHttp req res) (trace w self c) ->
  In (key, Given v) (optional_kwargs c) ->
  exists d, data req = Some d /\ dict_get key d = Some (of_opt_str v).
Proof.
  intros Hin Hkey.
  destruct c as [message kw | message kw | message group_key kw | ].
  - apply send_message_request in Hin as (_ & _ & _ & _ & Hdata).
    eexists. split; [exact Hdata | ].
    simpl in Hkey.
    repeat (destruct Hkey as [Hkey | Hkey];
            [injection Hkey as <- Hk; simpl; rewrite Hk; reflexivity | ]).
    contradiction Hkey.
  - rewrite send_emergency_message_trace in Hin. pick_event Hin.
    eexists. split; [reflexivity | ].
    simpl in Hkey.
    repeat (destruct Hkey as [Hkey | Hkey];
            [injection Hkey as <- Hk; simpl; rewrite Hk; reflexivity | ]).
    contradiction Hkey.
  - apply send_group_message_request in Hin as (_ & _ & _ & _ & Hdata).
    eexists. split; [exact Hdata | ].
    simpl in Hkey.
    repeat (destruct Hkey as [Hkey | Hkey];
            [injection Hkey as <- Hk; simpl; rewrite Hk; reflexivity | ]).
    contradiction Hkey.
  - contradiction Hkey.
Qed.

Lemma given_optionals_are_sent_unchanged_witness :
  exists d,
    data (emergency_request Fixtures.pushover "Emergency message" alarm_kwargs)
      = Some d /\
    dict_get "title" d = Some (PyStr "Alarm").
Proof.
  apply (given_optionals_are_sent_unchanged Fixtures.world_200
           Fixtures.pushover
           (SendEmergencyMessage "Emergency message" alarm_kwargs)
           (emergency_request Fixtures.pushover "Emergency message" alarm_kwargs)
           (transport Fixtures.world_200
              (emergency_request Fixtures.pushover "Emergency message"
                 alarm_kwargs))
           "title" (Some "Alarm")).
  - simpl. left. reflexivity.
  - simpl. left. reflexivity.
Defined.

(** The attachment changes [files] only: a call with an attachment sends the
    same form fields, to the same URL, as the same call without it, in
    whatever worlds the two are made. *)
Theorem attachment_does_not_change_the_fields (w w' : World)
    (self : Pushover) (c : Call) (req req' : Request)
    (res res' : result Response) :
  In (EvHttp req res) (trace w self c) ->
  In (EvHttp req' res') (trace w' self (drop_attachment c)) ->
  data req = data req' /\ url req = url req' /\ method req = method req' /\
  params req = params req' /\ req_timeout req = req_timeout req'.
Proof.
  intros Hin Hin'.
  destruct c as [message kw | message kw | message group_key kw | ];
    simpl in Hin'.
  - apply send_message_request in Hin as (-> & -> & -> & -> & ->).
    apply send_message_request in Hin' as (-> & -> & -> & -> & ->).
    repeat split.
  - rewrite send_emergency_message_trace in Hin, Hin'.
    pick_event Hin. pick_event Hin'. repeat split.
  - apply send_group_message_request in Hin as (-> & -> & -> & -> & ->).
    apply send_group_message_request in Hin' as (-> & -> & -> & -> & ->).
    repeat split.
  - rewrite list_sounds_trace in Hin, Hin'.
    pick_event Hin. pick_event Hin'. repeat split.
Qed.

Lemma attachment_does_not_change_the_fields_witness :
  data attached_request_to_G = data Fixtures.request_to_G /\
  url attached_request_to_G = url Fixtures.request_to_G /\
  method attached_request_to_G = method Fixtures.request_to_G /\
  params attached_request_to_G = params Fixtures.request_to_G /\
  req_timeout attached_request_to_G = req_timeout Fixtures.request_to_G.
Proof.
  apply (attachment_does_not_change_the_fields Fixtures.world_400
           Fixtures.world_200 Fixtures.client_U_T
           (SendGroupMessage "hi" "G" Fixtures.with_file)
           attached_request_to_G Fixtures.request_to_G
           (transport Fixtures.world_400 attached_request_to_G)
           (transport Fixtures.world_200 Fixtures.request_to_G)).
  - simpl. right. left. reflexivity.
  - simpl. left. reflexivity.
Defined.

(** ** Which errors reach the caller *)

Lemma settle_Ok (prefix : string) (res : result Response) (j : Json) :
  settle prefix res = Ok j ->
  exists r,
    res = Ok r /\ ~ (400 <= status_code r < 600) /\ body_json r = Ok j.
Proof.
  unfold settle, handled. destruct res as [r | e].
  - destruct ((400 <=? status_code r) && (status_code r <? 600)) eqn:Hbad.
    + simpl. discriminate.
    + intros Hbody. exists r. repeat split; auto.
      apply andb_false_iff in Hbad as [H | H];
        [apply Z.leb_gt in H | apply Z.ltb_ge in H]; lia.
  - destruct (is_request_exception e); discriminate.
Qed.

(** An exception of the transport that is not of the [requests] hierarchy is
    not translated: the call raises it as it is. *)
Theorem foreign_transport_error_propagates (w : World) (self : Pushover)
    (c : Call) (req : Request) (e : exn) :
  In (EvHttp req (Raise e)) (trace w self c) ->
  is_request_exception e = false ->
  outcome w self c = Raise e.
Proof.
  intros Hin He. rewrite (called_then_settled _ _ _ _ _ Hin).
  unfold settle, handled. rewrite He. reflexivity.
Qed.

Lemma foreign_transport_error_propagates_witness :
  outcome {| fs_open := Fixtures.mock_file;
             transport := fun _ => Raise (OtherError "KeyboardInterrupt" "") |}
          Fixtures.pushover ListSounds =
  Raise (OtherError "KeyboardInterrupt" "").
Proof.
  apply (foreign_transport_error_propagates
           {| fs_open := Fixtures.mock_file;
              transport := fun _ => Raise (OtherError "KeyboardInterrupt" "") |}
           Fixtures.pushover ListSounds (sounds_request Fixtures.pushover)).
  - simpl. left. reflexivity.
  - reflexivity.
Defined.

(** When [open] raises on the attachment, with an exception that is not of
    the [requests] hierarchy (an [OSError], say), the call raises that
    exception as it is, and the call of [open] is all it did. *)
Theorem open_error_propagates (w : World) (self : Pushover) (c : Call)
    (path : string) (e : exn) :
  attachment_of c = Some path ->
  path <> "" ->
  fs_open w path "rb" = Raise e ->
  is_request_exception e = false ->
  outcome w self c = Raise e /\
  trace w self c = [EvOpen path "rb" (Raise e)].
Proof.
  intros Hatt Hpath Hopen He.
  destruct (run_cases w self c)
    as [(req & Hfalse & _) | [(path' & file & req & Hatt' & _ & Hopen' & _)
                             | (path' & e' & Hatt' & _ & Hopen' & -> & ->)]].
  - rewrite Hatt in Hfalse. apply truthy_Some in Hpath. congruence.
  - congruence.
  - assert (path' = path) by congruence. subst path'.
    assert (e' = e) by congruence. subst e'.
    unfold handled. rewrite He. split; reflexivity.
Qed.

Lemma open_error_propagates_witness :
  outcome Fixtures.world_no_file Fixtures.pushover
          (SendMessage "Test message" Fixtures.with_file) =
    Raise (OSError "[Errno 2] No such file or directory") /\
  trace Fixtures.world_no_file Fixtures.pushover
        (SendMessage "Test message" Fixtures.with_file) =
    [EvOpen "path/to/file" "rb"
            (Raise (OSError "[Errno 2] No such file or directory"))].
Proof.
  apply (open_error_propagates Fixtures.world_no_file Fixtures.pushover
           (SendMessage "Test message" Fixtures.with_file) "path/to/file"
           (OSError "[Errno 2] No such file or directory")).
  - reflexivity.
  - discriminate.
  - reflexivity.
  - reflexivity.
Defined.

(** A response whose status is outside 400 to 599 is never treated as a
    failure, 2xx or not: the call ends the way decoding the body ends. *)
Theorem status_outside_4xx_5xx_decodes_body (w : World) (self : Pushover)
    (c : Call) (req : Request) (r : Response) :
  In (EvHttp req (Ok r)) (trace w self c) ->
  ~ (400 <= status_code r < 600) ->
  outcome w self c = body_json r.
Proof.
  intros Hin Hstatus. rewrite (called_then_settled _ _ _ _ _ Hin).
  unfold settle.
  destruct ((400 <=? status_code r) && (status_code r <? 600)) eqn:Hbad;
    [ | reflexivity].
  apply andb_true_iff in Hbad as [H1 H2].
  apply Z.leb_le in H1. apply Z.ltb_lt in H2. lia.
Qed.

Lemma status_outside_4xx_5xx_decodes_body_witness :
  outcome Fixtures.world_304 Fixtures.pushover ListSounds =
  Ok Fixtures.status_1.
Proof.
  apply (status_outside_4xx_5xx_decodes_body Fixtures.world_304
           Fixtures.pushover ListSounds (sounds_request Fixtures.pushover)
           {| status_code := 304; http_error_msg := "";
              body_json := Ok Fixtures.status_1 |}).
  - simpl. left. reflexivity.
  - simpl. lia.
Defined.

(** What a call returns is always the decoded body of the one response it
    got: a call that returns [j] made exactly one request, the answer had a
    status outside 400 to 599, and its body decoded to [j]. *)
Theorem returned_value_is_the_body (w : World) (self : Pushover) (c : Call)
    (j : Json) :
  outcome w self c = Ok j ->
  exists req r,
    http_calls (trace w self c) = [(req, Ok r)] /\
    transport w req = Ok r /\
    ~ (400 <= status_code r < 600) /\
    body_json r = Ok j.
Proof.
  intros Hout.
  destruct (run_cases w self c)
    as [(req & _ & _ & Hs & ->) | [(path & file & req & _ & _ & _ & _ & Hs & ->)
                                  | (path & e & _ & _ & _ & Hh & _)]];
    rewrite Hout in *.
  - symmetry in Hs. apply settle_Ok in Hs as (r & Hres & Hst & Hbody).
    exists req, r. rewrite Hres. simpl. auto.
  - symmetry in Hs. apply settle_Ok in Hs as (r & Hres & Hst & Hbody).
    exists req, r. rewrite Hres. simpl. auto.
  - unfold handled in Hh. destruct (is_request_exception e); discriminate.
Qed.

Lemma returned_value_is_the_body_witness :
  exists req r,
    http_calls (trace Fixtures.world_200 Fixtures.pushover
                  (SendMessage "Test message" Fixtures.with_file)) =
      [(req, Ok r)] /\
    transport Fixtures.world_200 req = Ok r /\
    ~ (400 <= status_code r < 600) /\
    body_json r = Ok Fixtures.status_1.
Proof.
  apply (returned_value_is_the_body Fixtures.world_200 Fixtures.pushover
           (SendMessage "Test message" Fixtures.with_file) Fixtures.status_1).
  reflexivity.
Defined.

(** Every [PushoverException] a call raises was made by its handler, as long
    as the outside world raises none itself: its cause is an exception of
    the [requests] hierarchy, and its message is the prefix of the method
    followed by [str] of that cause. *)
Theorem PushoverException_has_a_requests_cause (w : World) (self : Pushover)
    (c : Call) (message : string) (cause : option exn) :
  raises_no_PushoverException w ->
  outcome w self c = Raise (PushoverException message cause) ->
  exists e,
    cause = Some e /\
    is_request_exception e = true /\
    message = failure_prefix c ++ str e.
Proof.
  intros (Hfs & Htransport & Hbody) Hout.
  assert (Hhandled : forall e,
            handled (failure_prefix c) e = Raise (PushoverException message cause) ->
            (forall m k, e <> PushoverException m k) ->
            exists e0, cause = Some e0 /\ is_request_exception e0 = true /\
                       message = failure_prefix c ++ str e0).
  { intros e. unfold handled.
    destruct (is_request_exception e) eqn:He; intros H Hne.
    - injection H as <- <-. exists e. auto.
    - injection H as ->. exfalso. eapply Hne. reflexivity. }
  assert (Hsettle : forall req,
            settle (failure_prefix c) (transport w req) =
              Raise (PushoverException message cause) ->
            exists e0, cause = Some e0 /\ is_request_exception e0 = true /\
                       message = failure_prefix c ++ str e0).
  { intros req. unfold settle.
    destruct (transport w req) as [r | e] eqn:Hres.
    - destruct ((400 <=? status_code r) && (status_code r <? 600)).
      + intros H. apply (Hhandled _ H). discriminate.
      + intros H. exfalso. exact (Hbody _ _ _ _ Hres H).
    - intros H. apply (Hhandled _ H). intros m k ->.
      exact (Htransport _ _ _ Hres). }
  destruct (run_cases w self c)
    as [(req & _ & _ & Hs & _) | [(path & file & req & _ & _ & _ & _ & Hs & _)
                                 | (path & e & _ & _ & Hopen & Hh & _)]];
    rewrite Hout in *.
  - symmetry in Hs. exact (Hsettle _ Hs).
  - symmetry in Hs. exact (Hsettle _ Hs).
  - symmetry in Hh. apply (Hhandled _ Hh). intros m k ->.
    exact (Hfs _ _ _ _ Hopen).
Qed.

Lemma PushoverException_has_a_requests_cause_witness :
  exists e,
    Some (HTTPError "Bad Request") = Some e /\
    is_request_exception e = true /\
    "Failed to list sounds: Bad Request" = "Failed to list sounds: " ++ str e.
Proof.
  apply (PushoverException_has_a_requests_cause Fixtures.world_400
           Fixtures.pushover ListSounds).
  - repeat split; intros; try discriminate.
    match goal with H : _ = Ok _ |- _ => injection H as <- end. discriminate.
  - reflexivity.
Defined.

(** ** Files, and the two ways to send a message *)

(** No call leaves a file open: in every world, for every call, the files
    [open] handed out are the files closed, [open] is called at most once,
    and only in mode "rb". *)
Theorem every_opened_file_is_closed (w : World) (self : Pushover) (c : Call) :
  opened_files (trace w self c) = close_calls (trace w self c) /\
  (length (open_calls (trace w self c)) <= 1)%nat /\
  (forall path mode, In (path, mode) (open_calls (trace w self c)) ->
                     mode = "rb" /\ attachment_of c = Some path).
Proof.
  destruct (run_cases w self c)
    as [(req & _ & _ & _ & ->) | [(path & file & req & Hatt & _ & _ & _ & _ & ->)
                                 | (path & e & Hatt & _ & _ & _ & ->)]];
    simpl.
  - repeat split; auto; contradiction.
  - repeat split; auto; destruct H as [H | []]; congruence.
  - repeat split; auto; destruct H as [H | []]; congruence.
Qed.

(** A call without an attachment to send ([send_emergency_message],
    [list_sounds], or an attachment that is left out, [None] or empty) never
    touches the file system: it makes its one request, without [files], and
    nothing else. *)
Theorem no_attachment_no_open (w : World) (self : Pushover) (c : Call) :
  truthy (attachment_of c) = false ->
  exists req,
    trace w self c = [EvHttp req (transport w req)] /\
    files req = None /\
    open_calls (trace w self c) = [].
Proof.
  intros Hfalse.
  destruct (run_cases w self c)
    as [(req & _ & Hfiles & _ & Htr)
       | [(path & file & req & Hatt & Hpath & _)
         | (path & e & Hatt & Hpath & _)]].
  - exists req. rewrite Htr. auto.
  - rewrite Hatt in Hfalse. apply truthy_Some in Hpath. congruence.
  - rewrite Hatt in Hfalse. apply truthy_Some in Hpath. congruence.
Qed.

Lemma no_attachment_no_open_witness :
  exists req,
    trace Fixtures.world_no_file Fixtures.pushover
          (SendEmergencyMessage "Emergency message" alarm_kwargs) =
      [EvHttp req (transport Fixtures.world_no_file req)] /\
    files req = None /\
    open_calls (trace Fixtures.world_no_file Fixtures.pushover
                  (SendEmergencyMessage "Emergency message" alarm_kwargs)) = [].
Proof.
  apply (no_attachment_no_open Fixtures.world_no_file Fixtures.pushover
           (SendEmergencyMessage "Emergency message" alarm_kwargs)).
  reflexivity.
Defined.




(** [send_emergency_message] sends the [retry] the caller gave and the
    [expire] the caller gave, each whatever the other arguments are: an
    integer as it is and an explicit [None] as [None]. *)
Theorem emergency_retry_expire_are_sent_as_given (w : World) (self : Pushover)
    (message : string) (kw : EmergencyKwargs) :
  exists req d,
    trace w self (SendEmergencyMessage message kw) =
      [EvHttp req (transport w req)] /\
    data req = Some d /\
    (forall retry, em_retry kw = Given retry ->
                   dict_get "retry" d = Some (of_opt_int retry)) /\
    (forall expire, em_expire kw = Given expire ->
                    dict_get "expire" d = Some (of_opt_int expire)).
Proof.
  eexists. eexists.
  split; [apply send_emergency_message_trace | ].
  split; [reflexivity | ]. simpl.
  split; intros v ->; reflexivity.
Qed.

(** A call that gives [retry] and leaves [expire] out. *)
Lemma emergency_retry_expire_are_sent_as_given_witness :
  exists req d,
    trace Fixtures.world_200 Fixtures.pushover
      (SendEmergencyMessage "Emergency message"
         {| em_title := Omitted; em_url := Omitted; em_url_title := Omitted;
            em_retry := Given (Some 60); em_expire := Omitted;
            em_sound := Omitted; em_device := Omitted |}) =
      [EvHttp req (transport Fixtures.world_200 req)] /\
    data req = Some d /\
    dict_get "retry" d = Some (PyInt 60).
Proof.
  destruct (emergency_retry_expire_are_sent_as_given Fixtures.world_200
              Fixtures.pushover "Emergency message"
              {| em_title := Omitted; em_url := Omitted;
                 em_url_title := Omitted;
                 em_retry := Given (Some 60); em_expire := Omitted;
                 em_sound := Omitted; em_device := Omitted |})
    as (req & d & Htrace & Hdata & Hretry & _).
  exists req, d. split; [exact Htrace | ]. split; [exact Hdata | ].
  apply (Hretry (Some 60)). reflexivity.
Defined.
